(** * FORCE-RISCV example sequence [basic_fpu_force.py]

    A shallow embedding of [MainSequence.generate]
    (examples/riscv/basic_fpu_force.py) and of the calls it makes on its
    host ([getOption], [getGlobalState], [pickWeighted], [genInstruction]),
    followed by the properties of one generation run.

    The sequence is a program over an interface of four host calls.  It is
    embedded as a finite tree of calls ([Prog]); a run against a host
    ([Env]) yields the trace of the calls made with their answers, the
    outcome (normal return or the exception that escaped) and the final
    state of the host. *)

From Stdlib Require Import ZArith List String Bool Lia PeanoNat.
Import ListNotations.
Local Open Scope string_scope.
Local Open Scope Z_scope.
Local Open Scope list_scope.

(* ================================================================== *)
(** * Python values and exceptions *)
(* ================================================================== *)

(** The Python values an option or a global-state entry may hold. *)
Inductive PyVal : Type :=
| PyInt (z : Z)
| PyBool (b : bool)
| PyStr (s : string)
| PyNone.

(** Exceptions: [TypeError] is the one the interpreter itself raises in
    [generate] (from [range]); any other exception class comes from the
    host and is kept by its name. *)
Inductive PyExn : Type :=
| TypeError
| Raised (cls : string).

(** A computation either raises or returns. *)
Definition Result (A : Type) : Type := (PyExn + A)%type.

(** [operator.index]: the integer a value stands for where Python wants an
    integer ([bool] is a subclass of [int]); [None] where that is a
    [TypeError]. *)
Definition py_index (v : PyVal) : option Z :=
  match v with
  | PyInt z => Some z
  | PyBool b => Some (if b then 1 else 0)
  | PyStr _ => None
  | PyNone => None
  end.

(** Python's [==] on these values: numbers by value, strings by content,
    [None] only with itself. It never raises. *)
Definition py_eq (a b : PyVal) : bool :=
  match py_index a, py_index b with
  | Some x, Some y => Z.eqb x y
  | None, None =>
      match a, b with
      | PyStr s, PyStr t => String.eqb s t
      | PyNone, PyNone => true
      | _, _ => false
      end
  | _, _ => false
  end.

(* ================================================================== *)
(** * The host interface *)
(* ================================================================== *)

(** An instruction identifier, such as ["FADD.S##RISCV"]. *)
Definition Ident : Type := string.

(** The handle [genInstruction] returns. *)
Definition RecordId : Type := Z.

(** An instruction group is a Python dict from identifier to weight; its
    entries are kept in insertion order. *)
Definition Group : Type := list (Ident * Z).

(** The four calls [generate] makes on [self], indexed by the type of
    their answer. *)
Inductive Call : Type -> Type :=
| GetOption (name : string) : Call (PyVal * bool)
| GetGlobalState (name : string) : Call PyVal
| PickWeighted (group : Group) : Call Ident
| GenInstruction (id : Ident) : Call RecordId.

(** Programs over the interface: return, raise, or make a call and go on
    with its answer. *)
Inductive Prog (A : Type) : Type :=
| Ret (a : A)
| Raise (e : PyExn)
| Vis {X : Type} (c : Call X) (k : X -> Prog A).

Arguments Ret {A} a.
Arguments Raise {A} e.
Arguments Vis {A X} c k.

Fixpoint bind {A B : Type} (p : Prog A) (f : A -> Prog B) : Prog B :=
  match p with
  | Ret a => f a
  | Raise e => Raise e
  | Vis c k => Vis c (fun x => bind (k x) f)
  end.

Definition call {X : Type} (c : Call X) : Prog X := Vis c Ret.

Declare Scope prog_scope.
Delimit Scope prog_scope with prog.
Notation "x <- p ;; q" := (bind p (fun x => q))
  (at level 61, p at next level, right associativity) : prog_scope.
Notation "' pat <- p ;; q" := (bind p (fun x => match x with pat => q end))
  (at level 61, pat pattern, p at next level, right associativity) : prog_scope.
Notation "p ;; q" := (bind p (fun _ => q))
  (at level 61, right associativity) : prog_scope.
Local Open Scope prog_scope.

(* ================================================================== *)
(** * [MainSequence.generate] *)
(* ================================================================== *)

(** [range(v)]: the integers [0 .. v-1] (none when [v <= 0]); a value that
    is not an integer raises [TypeError]. *)
Definition py_range (v : PyVal) : Prog (list Z) :=
  match py_index v with
  | Some n => Ret (map Z.of_nat (seq 0 (Z.to_nat n)))
  | None => Raise TypeError
  end.

(** [for x in xs: body(x)]. *)
Fixpoint for_each {A : Type} (xs : list A) (body : A -> Prog unit) : Prog unit :=
  match xs with
  | [] => Ret tt
  | x :: rest => body x ;; for_each rest body
  end.

Section Sequence.

(** The two groups come from [DV.riscv.trees.instruction_tree], which
    the sequence imports; their contents are a parameter here. *)
Variables RV32F_instructions RV64F_instructions : Group.

(** The body of the [for] loop (lines 68 and 71). *)
Definition loop_body (instruction_group : Group) (_ : Z) : Prog unit :=
  the_instruction <- call (PickWeighted instruction_group) ;;
  record_id <- call (GenInstruction the_instruction) ;;
  Ret tt.

(** [MainSequence.generate] (lines 35 to 71). *)
Definition generate : Prog unit :=
  '(count_opt, count_opt_valid) <- call (GetOption "instruction_count") ;;
  let instruction_count :=
    if (count_opt_valid : bool) then count_opt else PyInt 100 in
  width <- call (GetGlobalState "AppRegisterWidth") ;;
  let instruction_group :=
    if py_eq width (PyInt 32) then RV32F_instructions
    else RV64F_instructions in
  indices <- py_range instruction_count ;;
  for_each indices (loop_body instruction_group).

End Sequence.

(* ================================================================== *)
(** * Hosts, traces and runs *)
(* ================================================================== *)

(** What a run leaves behind: each call made, with its arguments and its
    answer, in the order the calls were made.  A call is one event: it is
    entered and has answered (or raised) before the next event starts. *)
Inductive Event : Type :=
| EvGetOption (name : string) (answer : PyVal * bool)
| EvGetGlobalState (name : string) (answer : PyVal)
| EvPickWeighted (group : Group) (answer : Result Ident)
| EvGenInstruction (id : Ident) (answer : Result RecordId).

Definition Trace : Type := list Event.

(** A host over a state [W].  The two lookups answer with a value
    ([getOption] reports a missing key through its flag); the weighted
    draw and the generation backend may raise. *)
Record Env (W : Type) : Type := {
  getOption : string -> W -> (PyVal * bool) * W;
  getGlobalState : string -> W -> PyVal * W;
  pickWeighted : Group -> W -> Result Ident * W;
  genInstruction : Ident -> W -> Result RecordId * W
}.

Arguments getOption {W} _ _ _.
Arguments getGlobalState {W} _ _ _.
Arguments pickWeighted {W} _ _ _.
Arguments genInstruction {W} _ _ _.

Section Run.

Context {W : Type} (env : Env W).

(** One call against the host: the event logged, the answer and the new
    state of the host. *)
Definition step {X : Type} (c : Call X) (w : W) : Event * Result X * W :=
  match c in Call T return Event * Result T * W with
  | GetOption name =>
      let '(r, w') := getOption env name w in (EvGetOption name r, inr r, w')
  | GetGlobalState name =>
      let '(r, w') := getGlobalState env name w in
      (EvGetGlobalState name r, inr r, w')
  | PickWeighted g =>
      let '(r, w') := pickWeighted env g w in (EvPickWeighted g r, r, w')
  | GenInstruction id =>
      let '(r, w') := genInstruction env id w in (EvGenInstruction id r, r, w')
  end.

(** Running a program: an exception raised by a call ends the run there
    and becomes its outcome. *)
Fixpoint run {A : Type} (p : Prog A) (w : W) : Trace * Result A * W :=
  match p with
  | Ret a => ([], inr a, w)
  | Raise e => ([], inl e, w)
  | Vis c k =>
      let '(ev, r, w1) := step c w in
      match r with
      | inl e => ([ev], inl e, w1)
      | inr x => let '(t, o, w2) := run (k x) w1 in (ev :: t, o, w2)
      end
  end.

End Run.

(** The three components of a run of [generate]. *)
Section GenerateRun.

Context {W : Type} (env : Env W).
Variables RV32F_instructions RV64F_instructions : Group.

Definition generate_run (w : W) : Trace * Result unit * W :=
  run env (generate RV32F_instructions RV64F_instructions) w.

Definition generate_trace (w : W) : Trace := fst (fst (generate_run w)).
Definition generate_outcome (w : W) : Result unit := snd (fst (generate_run w)).
Definition generate_final (w : W) : W := snd (generate_run w).

End GenerateRun.

(* ================================================================== *)
(** * Observations on traces *)
(* ================================================================== *)

Definition is_getOption (ev : Event) : bool :=
  match ev with EvGetOption _ _ => true | _ => false end.

Definition is_getGlobalState (ev : Event) : bool :=
  match ev with EvGetGlobalState _ _ => true | _ => false end.

Definition is_pickWeighted (ev : Event) : bool :=
  match ev with EvPickWeighted _ _ => true | _ => false end.

Definition is_genInstruction (ev : Event) : bool :=
  match ev with EvGenInstruction _ _ => true | _ => false end.

(** How many calls of one kind a trace holds. *)
Definition calls (kind : Event -> bool) (t : Trace) : nat :=
  List.length (filter kind t).

(** The identifiers submitted to [genInstruction], in order. *)
Fixpoint submitted (t : Trace) : list Ident :=
  match t with
  | [] => []
  | EvGenInstruction id _ :: rest => id :: submitted rest
  | _ :: rest => submitted rest
  end.

(** The identifiers [pickWeighted] returned, in order. *)
Fixpoint drawn (t : Trace) : list Ident :=
  match t with
  | [] => []
  | EvPickWeighted _ (inr id) :: rest => id :: drawn rest
  | _ :: rest => drawn rest
  end.

(** The groups [pickWeighted] was called on, in order. *)
Fixpoint groups_used (t : Trace) : list Group :=
  match t with
  | [] => []
  | EvPickWeighted g _ :: rest => g :: groups_used rest
  | _ :: rest => groups_used rest
  end.

(** The exception an event ended with, if it raised. *)
Definition raised (ev : Event) : option PyExn :=
  match ev with
  | EvPickWeighted _ (inl e) => Some e
  | EvGenInstruction _ (inl e) => Some e
  | _ => None
  end.

(** What the sequence receives from [getOption], [getGlobalState] and
    [pickWeighted]: the answers alone, in order.  The answers of
    [genInstruction] are left out. *)
Inductive Response : Type :=
| OptionAnswer (r : PyVal * bool)
| StateAnswer (v : PyVal)
| PickAnswer (r : Result Ident).

Fixpoint responses (t : Trace) : list Response :=
  match t with
  | [] => []
  | EvGetOption _ r :: rest => OptionAnswer r :: responses rest
  | EvGetGlobalState _ v :: rest => StateAnswer v :: responses rest
  | EvPickWeighted _ r :: rest => PickAnswer r :: responses rest
  | EvGenInstruction _ _ :: rest => responses rest
  end.

(** The identifiers drawn and the draws made, read off the responses. *)
Fixpoint answered_draws (rs : list Response) : list Ident :=
  match rs with
  | [] => []
  | PickAnswer (inr id) :: rest => id :: answered_draws rest
  | _ :: rest => answered_draws rest
  end.

Definition is_pick_answer (r : Response) : bool :=
  match r with PickAnswer _ => true | _ => false end.

(** The record identifiers [genInstruction] returned, in order. *)
Fixpoint record_ids (t : Trace) : list RecordId :=
  match t with
  | [] => []
  | EvGenInstruction _ (inr rid) :: rest => rid :: record_ids rest
  | _ :: rest => record_ids rest
  end.

(** The run's answer of [getOption("instruction_count")]. *)
Definition option_reported (t : Trace) (value : PyVal) (is_present : bool) : Prop :=
  In (EvGetOption "instruction_count" (value, is_present)) t.

(** The run's answer of [getGlobalState('AppRegisterWidth')]. *)
Definition width_reported (t : Trace) (width : PyVal) : Prop :=
  In (EvGetGlobalState "AppRegisterWidth" width) t.

(** The count the loop is driven by (lines 40 to 43). *)
Definition resolved_count (r : PyVal * bool) : PyVal :=
  if snd r then fst r else PyInt 100.

(** A value that stands for an integer greater than zero. *)
Definition positive_integer (v : PyVal) : Prop :=
  exists n : Z, py_index v = Some n /\ 0 < n.

(** ** Groups *)

Definition total_weight (g : Group) : Z :=
  fold_right (fun entry acc => snd entry + acc) 0 g.

(** A group can be sampled when its total weight is positive; an empty
    group has total weight zero. *)
Definition sampleable (g : Group) : bool := 0 <? total_weight g.

Definition member (id : Ident) (g : Group) : bool :=
  existsb (fun entry => String.eqb id (fst entry)) g.

(** The contract of the weighted draw, as far as a trace shows it: every
    identifier returned is an entry of the group drawn from. *)
Definition picks_within_group (t : Trace) : Prop :=
  forall g id, In (EvPickWeighted g (inr id)) t -> member id g = true.

(** The fail-fast part of the contract: no draw on a group that cannot be
    sampled returned an identifier. *)
Definition picks_fail_fast (t : Trace) : Prop :=
  forall g id, In (EvPickWeighted g (inr id)) t -> sampleable g = true.

(** ** The shape of the loop's trace

    [loop_trace g n t o]: [t] and [o] are the trace and outcome of a loop
    of [n] iterations over group [g].  Each iteration is one draw on [g]
    followed by the submission of the identifier drawn; the trace stops
    at the first call that raises. *)
Inductive loop_trace (g : Group) : nat -> Trace -> Result unit -> Prop :=
| loop_done :
    loop_trace g O [] (inr tt)
| loop_pick_raises n e :
    loop_trace g (S n) [EvPickWeighted g (inl e)] (inl e)
| loop_gen_raises n id e :
    loop_trace g (S n)
      [EvPickWeighted g (inr id); EvGenInstruction id (inl e)] (inl e)
| loop_iteration n id rid t o :
    loop_trace g n t o ->
    loop_trace g (S n)
      (EvPickWeighted g (inr id) :: EvGenInstruction id (inr rid) :: t) o.

(* ================================================================== *)
(** * A simulated host

    A small deterministic host used to run the sequence on concrete
    inputs: options and global state are association lists, the weighted
    draw walks the group with a pseudo-random number, and the backend
    appends to the program under construction until its capacity is
    reached. *)
(* ================================================================== *)

Module Sim.

Record World : Type := mkWorld {
  options : list (string * PyVal);
  globals : list (string * PyVal);
  seed : Z;
  program : list Ident;
  capacity : nat
}.

Fixpoint assoc (key : string) (l : list (string * PyVal)) : option PyVal :=
  match l with
  | [] => None
  | (k, v) :: rest => if String.eqb key k then Some v else assoc key rest
  end.

Definition sim_getOption (name : string) (w : World) : (PyVal * bool) * World :=
  match assoc name (options w) with
  | Some v => ((v, true), w)
  | None => ((PyInt 0, false), w)
  end.

Definition sim_getGlobalState (name : string) (w : World) : PyVal * World :=
  match assoc name (globals w) with
  | Some v => (v, w)
  | None => (PyNone, w)
  end.

(** The entry whose weight interval holds [r]. *)
Fixpoint pick_at (g : Group) (r : Z) : option Ident :=
  match g with
  | [] => None
  | (id, weight) :: rest =>
      if r <? weight then Some id else pick_at rest (r - weight)
  end.

Definition next_seed (s : Z) : Z := (s * 1103515245 + 12345) mod 2147483648.

Definition sim_pickWeighted (g : Group) (w : World) : Result Ident * World :=
  if sampleable g then
    match pick_at g (seed w mod total_weight g) with
    | Some id =>
        (inr id,
         mkWorld (options w) (globals w) (next_seed (seed w))
                 (program w) (capacity w))
    | None => (inl (Raised "SelectionError"), w)
    end
  else (inl (Raised "SelectionError"), w).

Definition sim_genInstruction (id : Ident) (w : World) : Result RecordId * World :=
  if (List.length (program w) <? capacity w)%nat then
    (inr (Z.of_nat (S (List.length (program w)))),
     mkWorld (options w) (globals w) (seed w) (program w ++ [id]) (capacity w))
  else (inl (Raised "GenerationError"), w).

Definition host : Env World := {|
  getOption := sim_getOption;
  getGlobalState := sim_getGlobalState;
  pickWeighted := sim_pickWeighted;
  genInstruction := sim_genInstruction
|}.

(** The same host with every record identifier shifted by [d]: it builds
    the same program and differs only in the handles it gives back. *)
Definition host_shifted (d : Z) : Env World := {|
  getOption := sim_getOption;
  getGlobalState := sim_getGlobalState;
  pickWeighted := sim_pickWeighted;
  genInstruction := fun id w =>
    match sim_genInstruction id w with
    | (inr rid, w') => (inr (rid + d), w')
    | (inl e, w') => (inl e, w')
    end
|}.

(** Excerpts of the two groups of [instruction_tree.py]. *)
Definition rv32f : Group :=
  [("FADD.S##RISCV", 10); ("FSUB.S##RISCV", 10); ("FMUL.S##RISCV", 10);
   ("FLW##RISCV", 10); ("FSW##RISCV", 10)].

Definition rv64f : Group :=
  [("FCVT.L.S##RISCV", 10); ("FCVT.LU.S##RISCV", 10);
   ("FCVT.S.L##RISCV", 10); ("FCVT.S.LU##RISCV", 10)].

(** A world with the given option and global-state tables, an empty
    program and room for [cap] instructions. *)
Definition world (opts glob : list (string * PyVal)) (cap : nat) : World :=
  mkWorld opts glob 2020 [] cap.

Definition width (n : Z) : list (string * PyVal) :=
  [("AppRegisterWidth", PyInt n)].

Definition count (v : PyVal) : list (string * PyVal) :=
  [("instruction_count", v)].

(** ** Scenarios *)

(** Three instructions on a 64-bit target. *)
Definition three_on_64 : World := world (count (PyInt 3)) (width 64) 1000.

(** Four instructions on a 32-bit target. *)
Definition four_on_32 : World := world (count (PyInt 4)) (width 32) 1000.

(** No [instruction_count] option. *)
Definition no_option : World := world [] (width 64) 1000.

(** A count of zero, a negative count, a count that is a string. *)
Definition zero_count : World := world (count (PyInt 0)) (width 64) 1000.
Definition negative_count : World := world (count (PyInt (-2))) (width 32) 1000.
Definition string_count : World := world (count (PyStr "abc")) (width 64) 1000.

(** A register width of 16. *)
Definition width_16 : World := world (count (PyInt 3)) (width 16) 1000.

(** A backend that fails once the program holds two instructions. *)
Definition small_program : World := world (count (PyInt 5)) (width 32) 2.

End Sim.

(* ================================================================== *)
(** * The shape of a run of [generate] *)
(* ================================================================== *)

Section Shape.

Variables RV32F_instructions RV64F_instructions : Group.

(** The group line 64 selects for a register width. *)
Definition active_group (width : PyVal) : Group :=
  if py_eq width (PyInt 32) then RV32F_instructions else RV64F_instructions.

(** The part of a run after the two lookups: [range] either rejects the
    count, or the loop runs over as many indices as the count says. *)
Definition body_trace (count : PyVal) (g : Group) (t : Trace)
    (o : Result unit) : Prop :=
  match py_index count with
  | None => t = [] /\ o = inl TypeError
  | Some n => loop_trace g (Z.to_nat n) t o
  end.

(** A run: the option lookup, the width lookup, then the body. *)
Definition run_shape (t : Trace) (o : Result unit) : Prop :=
  exists (r : PyVal * bool) (width : PyVal) (body : Trace),
    t = EvGetOption "instruction_count" r
          :: EvGetGlobalState "AppRegisterWidth" width :: body
    /\ body_trace (resolved_count r) (active_group width) body o.

End Shape.

(* ================================================================== *)
(** * Further observations *)
(* ================================================================== *)

(** No call of the trace raised. *)
Definition all_returned (t : Trace) : bool :=
  forallb (fun ev => match raised ev with None => true | Some _ => false end) t.

(** An event with the record identifier it carries, if any, renamed. *)
Definition relabel_event (f : Ident -> RecordId -> RecordId) (ev : Event) : Event :=
  match ev with
  | EvGenInstruction id (inr rid) => EvGenInstruction id (inr (f id rid))
  | _ => ev
  end.

(** A host that answers as [env] does, but hands out the record
    identifiers renamed by [f]. *)
Definition relabel_host {W : Type} (f : Ident -> RecordId -> RecordId)
    (env : Env W) : Env W := {|
  getOption := getOption env;
  getGlobalState := getGlobalState env;
  pickWeighted := pickWeighted env;
  genInstruction := fun id w =>
    match genInstruction env id w with
    | (inr rid, w') => (inr (f id rid), w')
    | (inl e, w') => (inl e, w')
    end
|}.

(** The simulated host without any option table: [getOption] reports
    every option absent and hands back a string in place of a value. *)
Definition host_without_options : Env Sim.World := {|
  getOption := fun _ w => ((PyStr "unset", false), w);
  getGlobalState := Sim.sim_getGlobalState;
  pickWeighted := Sim.sim_pickWeighted;
  genInstruction := Sim.sim_genInstruction
|}.

(** ** Progress of the loop *)

(** A whole iteration sits at position [pos] of the trace: a draw on [g]
    that returned an identifier, then the submission of that identifier,
    which returned a record identifier. *)
Definition iteration_at (g : Group) (t : Trace) (pos : nat) : Prop :=
  exists id rid,
    nth_error t pos = Some (EvPickWeighted g (inr id))
    /\ nth_error t (S pos) = Some (EvGenInstruction id (inr rid)).

(** How far a loop of [n] iterations over [g] got, in a trace whose loop
    part starts at position [base].  Some [k] iterations ran whole, one
    after the other from [base] on.  Either [k = n], the outcome is a
    normal return and the trace ends there; or [k < n] and iteration [k]
    raised the exception that is the outcome, in its draw (the last
    event) or in its submission (the last event, just after its draw). *)
Definition loop_progress (g : Group) (n : nat) (t : Trace) (o : Result unit)
    (base : nat) : Prop :=
  exists k : nat,
    (k <= n)%nat
    /\ (forall i : nat, (i < k)%nat -> iteration_at g t (base + 2 * i))
    /\ ((k = n /\ o = inr tt /\ List.length t = (base + 2 * k)%nat)
        \/ ((k < n)%nat
            /\ exists e, o = inl e
                 /\ ((nth_error t (base + 2 * k)
                       = Some (EvPickWeighted g (inl e))
                      /\ List.length t = (base + 2 * k + 1)%nat)
                     \/ (exists id,
                           nth_error t (base + 2 * k)
                           = Some (EvPickWeighted g (inr id))
                           /\ nth_error t (S (base + 2 * k))
                              = Some (EvGenInstruction id (inl e))
                           /\ List.length t = (base + 2 * k + 2)%nat)))).

(** ** Two runs side by side *)

(** Two sequences of responses agree: at every position both reach, the
    response is the same.  Nothing is said of their lengths. *)
Fixpoint agree (rs1 rs2 : list Response) : Prop :=
  match rs1, rs2 with
  | a :: rest1, b :: rest2 => a = b /\ agree rest1 rest2
  | _, _ => True
  end.

(** Every [genInstruction] call of the trace returned a record
    identifier. *)
Definition gens_returned (t : Trace) : bool :=
  forallb (fun ev => match ev with
                     | EvGenInstruction _ (inl _) => false
                     | _ => true
                     end) t.

(* ================================================================== *)
(** * Running programs *)
(* ================================================================== *)

Section RunFacts.

Context {W : Type} (env : Env W).

Lemma run_bind {A B : Type} (p : Prog A) (f : A -> Prog B) (w : W) :
  run env (bind p f) w =
    match run env p w with
    | (t, inr a, w1) =>
        let '(t', o, w2) := run env (f a) w1 in (t ++ t', o, w2)
    | (t, inl e, w1) => (t, inl e, w1)
    end.
Proof.
  revert w. induction p as [a | e | X c k IH]; intro w; simpl.
  - destruct (run env (f a) w) as [[t' o] w2]. reflexivity.
  - reflexivity.
  - destruct (step env c w) as [[ev [e | x]] w1]; [reflexivity |].
    rewrite IH.
    destruct (run env (k x) w1) as [[t [e | a]] w2]; [reflexivity |].
    destruct (run env (f a) w2) as [[t' o] w3]. reflexivity.
Qed.

(** One iteration of the loop, then the rest of it. *)
Lemma run_for_each_cons (g : Group) (x : Z) (xs : list Z) (w : W) :
  run env (for_each (x :: xs) (loop_body g)) w =
    match pickWeighted env g w with
    | (inl e, w1) => ([EvPickWeighted g (inl e)], inl e, w1)
    | (inr id, w1) =>
        match genInstruction env id w1 with
        | (inl e, w2) =>
            ([EvPickWeighted g (inr id); EvGenInstruction id (inl e)],
             inl e, w2)
        | (inr rid, w2) =>
            let '(t, o, w3) := run env (for_each xs (loop_body g)) w2 in
            (EvPickWeighted g (inr id) :: EvGenInstruction id (inr rid) :: t,
             o, w3)
        end
    end.
Proof.
  simpl.
  destruct (pickWeighted env g w) as [[e | id] w1]; [reflexivity |].
  simpl.
  destruct (genInstruction env id w1) as [[e | rid] w2]; [reflexivity |].
  simpl.
  destruct (run env (for_each xs (loop_body g)) w2) as [[t o] w3].
  reflexivity.
Qed.

Lemma run_for_each (g : Group) (xs : list Z) (w : W) :
  loop_trace g (List.length xs)
    (fst (fst (run env (for_each xs (loop_body g)) w)))
    (snd (fst (run env (for_each xs (loop_body g)) w))).
Proof.
  revert w. induction xs as [| x xs IH]; intro w.
  - simpl. constructor.
  - rewrite run_for_each_cons.
    destruct (pickWeighted env g w) as [[e | id] w1]; [constructor |].
    destruct (genInstruction env id w1) as [[e | rid] w2]; [constructor |].
    specialize (IH w2).
    destruct (run env (for_each xs (loop_body g)) w2) as [[t o] w3].
    simpl in *. constructor. exact IH.
Qed.

Variables RV32F_instructions RV64F_instructions : Group.

Local Abbreviation trace :=
  (generate_trace env RV32F_instructions RV64F_instructions).
Local Abbreviation outcome :=
  (generate_outcome env RV32F_instructions RV64F_instructions).

(** Every run of [generate] has the shape [run_shape] describes. *)
Lemma generate_run_shape (w : W) :
  run_shape RV32F_instructions RV64F_instructions (trace w) (outcome w).
Proof.
  unfold generate_trace, generate_outcome, generate_run, generate, run_shape.
  simpl.
  destruct (getOption env "instruction_count" w) as [[v present] w1].
  simpl.
  destruct (getGlobalState env "AppRegisterWidth" w1) as [width w2].
  exists (v, present), width.
  unfold body_trace, resolved_count, active_group. simpl.
  set (count := if present then v else PyInt 100).
  set (g := if py_eq width (PyInt 32) then RV32F_instructions
            else RV64F_instructions).
  rewrite run_bind. unfold py_range.
  destruct (py_index count) as [n |]; simpl.
  - pose proof (run_for_each g (map Z.of_nat (seq 0 (Z.to_nat n))) w2) as H.
    rewrite length_map, length_seq in H.
    destruct (run env (for_each _ (loop_body g)) w2) as [[t o] w3].
    simpl in *. eexists. split; [reflexivity | exact H].
  - exists []. repeat split.
Qed.

End RunFacts.

(* ================================================================== *)
(** * Facts about the loop's trace *)
(* ================================================================== *)

Section LoopFacts.

Variable g : Group.

Lemma loop_trace_zero t o : loop_trace g O t o -> t = [] /\ o = inr tt.
Proof. intro H. inversion H. split; reflexivity. Qed.

(** A loop that returns has made every one of its draws and
    submissions. *)
Lemma loop_trace_completed n t :
  loop_trace g n t (inr tt) ->
  calls is_pickWeighted t = n /\ calls is_genInstruction t = n.
Proof.
  intro H. remember (inr tt) as o eqn:Ho.
  induction H as [| n e | n id e | n id rid t o H IH]; try discriminate.
  - split; reflexivity.
  - destruct (IH Ho) as [Hp Hg]. unfold calls in *. simpl.
    split; congruence.
Qed.

(** The loop calls nothing but the draw and the backend. *)
Lemma loop_trace_kinds n t o :
  loop_trace g n t o ->
  Forall (fun ev => is_pickWeighted ev || is_genInstruction ev = true) t.
Proof.
  induction 1; repeat constructor; assumption.
Qed.

(** Every draw is on [g]. *)
Lemma loop_trace_groups n t o :
  loop_trace g n t o -> Forall (eq g) (groups_used t).
Proof.
  induction 1; simpl; repeat constructor; assumption.
Qed.

(** What is submitted is what was drawn, draw by draw. *)
Lemma loop_trace_submitted n t o :
  loop_trace g n t o -> submitted t = drawn t.
Proof.
  induction 1; simpl; congruence.
Qed.

Lemma loop_trace_submitted_drawn n t o id :
  loop_trace g n t o ->
  In id (submitted t) -> In (EvPickWeighted g (inr id)) t.
Proof.
  induction 1 as [| n e | n id' e | n id' rid t o H IH]; simpl.
  - tauto.
  - tauto.
  - intros [-> | []]. left. reflexivity.
  - intros [-> | Hin]; [left; reflexivity | right; right; auto].
Qed.

(** Positions [2i] hold the draws. *)
Lemma loop_trace_even n t o :
  loop_trace g n t o ->
  forall (i : nat) ev, nth_error t (2 * i) = Some ev ->
    exists r, ev = EvPickWeighted g r.
Proof.
  induction 1 as [| n e | n id e | n id rid t o H IH]; intros i ev Hnth.
  - destruct i; discriminate.
  - destruct i as [| i]; simpl in Hnth.
    + injection Hnth as <-. eauto.
    + replace (i + S (i + 0))%nat with (S (2 * i)) in Hnth by lia.
      destruct i; discriminate.
  - destruct i as [| i]; simpl in Hnth.
    + injection Hnth as <-. eauto.
    + replace (i + S (i + 0))%nat with (S (2 * i)) in Hnth by lia.
      simpl in Hnth. destruct (i + (i + 0))%nat; discriminate.
  - destruct i as [| i]; simpl in Hnth.
    + injection Hnth as <-. eauto.
    + replace (i + S (i + 0))%nat with (S (2 * i)) in Hnth by lia.
      apply (IH i). exact Hnth.
Qed.

(** Positions [2i+1] hold the submissions, each of the identifier the
    draw just before it returned. *)
Lemma loop_trace_odd n t o :
  loop_trace g n t o ->
  forall (i : nat) ev, nth_error t (1 + 2 * i) = Some ev ->
    exists id r, ev = EvGenInstruction id r
                 /\ nth_error t (2 * i) = Some (EvPickWeighted g (inr id)).
Proof.
  induction 1 as [| n e | n id e | n id rid t o H IH]; intros i ev Hnth.
  - destruct i; discriminate.
  - simpl in Hnth. destruct (i + (i + 0))%nat; discriminate.
  - destruct i as [| i]; simpl in Hnth.
    + injection Hnth as <-. eauto.
    + replace (i + S (i + 0))%nat with (S (2 * i)) in Hnth by lia.
      discriminate.
  - destruct i as [| i].
    + simpl in Hnth. injection Hnth as <-. eauto.
    + replace (1 + 2 * S i)%nat with (S (S (1 + 2 * i))) in Hnth by lia.
      replace (2 * S i)%nat with (S (S (2 * i))) by lia.
      apply (IH i). exact Hnth.
Qed.

(** A further draw is made only once the submission before it has
    returned. *)
Lemma loop_trace_next n t o :
  loop_trace g n t o ->
  forall (i : nat) ev, nth_error t (2 + 2 * i) = Some ev ->
    exists id rid,
      nth_error t (1 + 2 * i) = Some (EvGenInstruction id (inr rid)).
Proof.
  induction 1 as [| n e | n id e | n id rid t o H IH]; intros i ev Hnth.
  - discriminate.
  - simpl in Hnth. destruct (i + (i + 0))%nat; discriminate.
  - simpl in Hnth. destruct (i + (i + 0))%nat; discriminate.
  - destruct i as [| i].
    + simpl. eauto.
    + replace (2 + 2 * S i)%nat with (S (S (2 + 2 * i))) in Hnth by lia.
      replace (1 + 2 * S i)%nat with (S (S (1 + 2 * i))) by lia.
      apply (IH i ev). exact Hnth.
Qed.

(** A draw that returned is followed by its submission: no iteration is
    cut short between the two calls. *)
Lemma loop_trace_follow n t o :
  loop_trace g n t o ->
  forall (i : nat) id, nth_error t (2 * i) = Some (EvPickWeighted g (inr id)) ->
    exists r, nth_error t (1 + 2 * i) = Some (EvGenInstruction id r).
Proof.
  induction 1 as [| n e | n id' e | n id' rid t o H IH]; intros i id Hnth.
  - destruct i; discriminate.
  - destruct i as [| i]; simpl in Hnth; [discriminate |].
    replace (i + S (i + 0))%nat with (S (2 * i)) in Hnth by lia.
    destruct i; discriminate.
  - destruct i as [| i]; simpl in Hnth.
    + injection Hnth as ->. simpl. eauto.
    + replace (i + S (i + 0))%nat with (S (2 * i)) in Hnth by lia.
      simpl in Hnth. destruct (i + (i + 0))%nat; discriminate.
  - destruct i as [| i].
    + simpl in Hnth. injection Hnth as ->. simpl. eauto.
    + replace (2 * S i)%nat with (S (S (2 * i))) in Hnth by lia.
      replace (1 + 2 * S i)%nat with (S (S (1 + 2 * i))) by lia.
      apply (IH i id). exact Hnth.
Qed.

End LoopFacts.

Section LoopErrors.

Variable g : Group.

(** The event that raised is the last one, its exception is the loop's
    outcome, and every iteration before it ran both of its calls to
    their return. *)
Lemma loop_trace_raise n t o :
  loop_trace g n t o ->
  forall t1 ev t2 e,
    t = t1 ++ ev :: t2 -> raised ev = Some e ->
    o = inl e /\ t2 = []
    /\ S (calls is_genInstruction t1) = calls is_pickWeighted (t1 ++ [ev])
    /\ List.length (record_ids t1) = calls is_genInstruction t1.
Proof.
  induction 1 as [| n e0 | n id e0 | n id rid t o H IH];
    intros t1 ev t2 e Heq Hr.
  - destruct t1; discriminate.
  - destruct t1 as [| a t1].
    + simpl in Heq. injection Heq as <- <-. simpl in Hr.
      injection Hr as ->. repeat split; reflexivity.
    + destruct t1; discriminate.
  - destruct t1 as [| a t1].
    + simpl in Heq. injection Heq as <- _. discriminate.
    + destruct t1 as [| b t1].
      * simpl in Heq. injection Heq as <- <- <-. simpl in Hr.
        injection Hr as ->. repeat split; reflexivity.
      * destruct t1; discriminate.
  - destruct t1 as [| a t1].
    + simpl in Heq. injection Heq as <- _. discriminate.
    + destruct t1 as [| b t1].
      * simpl in Heq. injection Heq as <- <- _. discriminate.
      * simpl in Heq. injection Heq as <- <- Heq.
        destruct (IH t1 ev t2 e Heq Hr) as (Ho & Ht2 & Hc & Hl).
        repeat split; try assumption.
        -- unfold calls in *. simpl. congruence.
        -- unfold calls in *. simpl. congruence.
Qed.

(** A loop that ends with an exception ends with the call that raised
    it. *)
Lemma loop_trace_error n t e :
  loop_trace g n t (inl e) ->
  exists t1 ev, t = t1 ++ [ev] /\ raised ev = Some e.
Proof.
  intro H. remember (inl e) as o eqn:Ho.
  induction H as [| n e0 | n id e0 | n id rid t o H IH].
  - discriminate.
  - injection Ho as ->. exists [], (EvPickWeighted g (inl e)). split; reflexivity.
  - injection Ho as ->.
    exists [EvPickWeighted g (inr id)], (EvGenInstruction id (inl e)).
    split; reflexivity.
  - destruct (IH Ho) as (t1 & ev & -> & Hr).
    exists (EvPickWeighted g (inr id) :: EvGenInstruction id (inr rid) :: t1), ev.
    split; [reflexivity | exact Hr].
Qed.

(** On a group that cannot be sampled, a draw that honours its contract
    raises at once: the loop stops at its first call. *)
Lemma loop_trace_fail_fast n t o :
  loop_trace g n t o ->
  sampleable g = false -> picks_fail_fast t ->
  t = [] \/ exists e, t = [EvPickWeighted g (inl e)].
Proof.
  intros H Hg Hff.
  destruct H as [| n e | n id e | n id rid t o H].
  - left. reflexivity.
  - right. eauto.
  - assert (sampleable g = true) by (apply (Hff g id); left; reflexivity).
    congruence.
  - assert (sampleable g = true) by (apply (Hff g id); left; reflexivity).
    congruence.
Qed.

End LoopErrors.

(** ** What the responses determine *)

Lemma drawn_responses (t : Trace) : drawn t = answered_draws (responses t).
Proof.
  induction t as [| ev t IH]; [reflexivity |].
  destruct ev as [name r | name v | grp [e | id] | id r]; simpl; congruence.
Qed.

Lemma picks_responses (t : Trace) :
  calls is_pickWeighted t = List.length (filter is_pick_answer (responses t)).
Proof.
  unfold calls.
  induction t as [| ev t IH]; [reflexivity |].
  destruct ev as [name r | name v | grp r | id r]; simpl; congruence.
Qed.

Lemma calls_gen_submitted (t : Trace) :
  calls is_genInstruction t = List.length (submitted t).
Proof.
  unfold calls.
  induction t as [| ev t IH]; [reflexivity |].
  destruct ev as [name r | name v | grp r | id r]; simpl; congruence.
Qed.

(* ================================================================== *)
(** * Facts about the shape of a run *)
(* ================================================================== *)

Section ShapeFacts.

Variables RV32F_instructions RV64F_instructions : Group.

Lemma body_trace_kinds count g t o :
  body_trace count g t o ->
  Forall (fun ev => is_pickWeighted ev || is_genInstruction ev = true) t.
Proof.
  unfold body_trace. destruct (py_index count) as [n |].
  - apply loop_trace_kinds.
  - intros [-> _]. constructor.
Qed.

(** The two lookups occur once each, at the head of the trace: what a
    trace reports for the option and for the width is what the shape
    names. *)
Lemma run_shape_reported t o r width body :
  t = EvGetOption "instruction_count" r
        :: EvGetGlobalState "AppRegisterWidth" width :: body ->
  body_trace (resolved_count r) (active_group RV32F_instructions
                                   RV64F_instructions width) body o ->
  (forall v p, option_reported t v p -> r = (v, p))
  /\ (forall wd, width_reported t wd -> width = wd).
Proof.
  intros -> Hbody. apply body_trace_kinds in Hbody.
  rewrite Forall_forall in Hbody.
  split.
  - intros v p [H | [H | H]]; [congruence | discriminate |].
    apply Hbody in H. discriminate.
  - intros wd [H | [H | H]]; [discriminate | congruence |].
    apply Hbody in H. discriminate.
Qed.

End ShapeFacts.

(* ================================================================== *)
(** * Properties of a generation run *)
(* ================================================================== *)

Section Count.

Context {W : Type} (env : Env W).
Variables RV32F_instructions RV64F_instructions : Group.

Local Abbreviation trace :=
  (generate_trace env RV32F_instructions RV64F_instructions).
Local Abbreviation outcome :=
  (generate_outcome env RV32F_instructions RV64F_instructions).

(** The loop of a run whose option lookup answered [(v, p)]. *)
Lemma generate_body (w : W) v p :
  option_reported (trace w) v p ->
  exists width body,
    trace w = EvGetOption "instruction_count" (v, p)
                :: EvGetGlobalState "AppRegisterWidth" width :: body
    /\ body_trace (resolved_count (v, p))
         (active_group RV32F_instructions RV64F_instructions width)
         body (outcome w).
Proof.
  intro Hopt.
  destruct (generate_run_shape env RV32F_instructions RV64F_instructions w)
    as (r & width & body & Ht & Hbody).
  destruct (run_shape_reported _ _ _ _ _ _ _ Ht Hbody) as [Hr _].
  rewrite (Hr v p Hopt) in *. eauto.
Qed.

(** C1. When [getOption("instruction_count")] answers a positive integer
    [N] with the flag set, a run of [generate] that returns without an
    exception has called [genInstruction] exactly [N] times. *)
Theorem generate_count_fidelity (w : W) (N : Z) :
  0 < N ->
  option_reported (trace w) (PyInt N) true ->
  outcome w = inr tt ->
  Z.of_nat (calls is_genInstruction (trace w)) = N.
Proof.
  intros HN Hopt Hdone.
  destruct (generate_body w _ _ Hopt) as (width & body & Ht & Hbody).
  rewrite Ht. unfold body_trace in Hbody. simpl in Hbody.
  rewrite Hdone in Hbody.
  apply loop_trace_completed in Hbody. destruct Hbody as [_ Hg].
  unfold calls in *. simpl. rewrite Hg. lia.
Qed.

(** C5. When [getOption("instruction_count")] reports the option absent,
    the count is the default 100: a run that returns without an
    exception has made exactly 100 draws and 100 [genInstruction]
    calls. *)
Theorem generate_default_count (w : W) (v : PyVal) :
  option_reported (trace w) v false ->
  outcome w = inr tt ->
  resolved_count (v, false) = PyInt 100
  /\ calls is_pickWeighted (trace w) = 100%nat
  /\ calls is_genInstruction (trace w) = 100%nat.
Proof.
  intros Hopt Hdone.
  destruct (generate_body w _ _ Hopt) as (width & body & Ht & Hbody).
  rewrite Ht. unfold body_trace in Hbody. simpl in Hbody.
  rewrite Hdone in Hbody.
  apply loop_trace_completed in Hbody. destruct Hbody as [Hp Hg].
  unfold calls in *. simpl. rewrite Hp, Hg.
  repeat split; reflexivity.
Qed.

(** C10. When the option is present with an integer [N <= 0], [generate]
    returns without an exception; it has queried
    [getGlobalState('AppRegisterWidth')] and made no [pickWeighted] and
    no [genInstruction] call. *)
Theorem generate_nonpositive_count (w : W) (N : Z) :
  N <= 0 ->
  option_reported (trace w) (PyInt N) true ->
  outcome w = inr tt
  /\ calls is_pickWeighted (trace w) = O
  /\ calls is_genInstruction (trace w) = O
  /\ exists width,
       trace w = [EvGetOption "instruction_count" (PyInt N, true);
                  EvGetGlobalState "AppRegisterWidth" width].
Proof.
  intros HN Hopt.
  destruct (generate_body w _ _ Hopt) as (width & body & Ht & Hbody).
  unfold body_trace in Hbody. simpl in Hbody.
  replace (Z.to_nat N) with O in Hbody by lia.
  apply loop_trace_zero in Hbody. destruct Hbody as [-> Ho].
  rewrite Ht. repeat split; try assumption; try reflexivity.
  exists width. reflexivity.
Qed.

(** C3, as amended. When the option is present with a value that is not
    a positive integer, [generate] makes no [pickWeighted] and no
    [genInstruction] call, after having queried the register width.
    There is no configuration error: a value that is not an integer
    makes [range] raise [TypeError]; an integer that is zero or
    negative is used as it is and the run returns normally. *)
Theorem generate_invalid_count (w : W) (v : PyVal) :
  option_reported (trace w) v true ->
  ~ positive_integer v ->
  calls is_pickWeighted (trace w) = O
  /\ calls is_genInstruction (trace w) = O
  /\ calls is_getGlobalState (trace w) = 1%nat
  /\ (py_index v = None -> outcome w = inl TypeError)
  /\ (forall n, py_index v = Some n -> outcome w = inr tt).
Proof.
  intros Hopt Hnot.
  destruct (generate_body w _ _ Hopt) as (width & body & Ht & Hbody).
  unfold body_trace, resolved_count in Hbody. simpl in Hbody.
  destruct (py_index v) as [n |] eqn:Hv.
  - assert (Hn : n <= 0).
    { destruct (Z_lt_le_dec 0 n) as [Hpos | Hle]; [| exact Hle].
      exfalso. apply Hnot. exists n. split; [exact Hv | exact Hpos]. }
    replace (Z.to_nat n) with O in Hbody by lia.
    apply loop_trace_zero in Hbody. destruct Hbody as [-> Ho].
    rewrite Ht. repeat split; try reflexivity; [discriminate | auto].
  - destruct Hbody as [-> Ho].
    rewrite Ht. repeat split; try reflexivity; [auto | discriminate].
Qed.

End Count.

Section BodyFacts.

Lemma body_trace_cases count g t o :
  body_trace count g t o ->
  (py_index count = None /\ t = [] /\ o = inl TypeError)
  \/ (exists n, py_index count = Some n /\ loop_trace g (Z.to_nat n) t o).
Proof.
  unfold body_trace. destruct (py_index count) as [n |].
  - intro H. right. exists n. split; [reflexivity | exact H].
  - intros [-> ->]. left. repeat split.
Qed.

Lemma loop_trace_bound g n t o :
  loop_trace g n t o -> (calls is_pickWeighted t <= n)%nat.
Proof.
  unfold calls. induction 1; simpl; lia.
Qed.

Lemma calls_lookups_none (t : Trace) :
  Forall (fun ev => is_pickWeighted ev || is_genInstruction ev = true) t ->
  calls is_getOption t = O /\ calls is_getGlobalState t = O.
Proof.
  unfold calls. induction 1 as [| ev t Hev _ IH]; [split; reflexivity |].
  destruct ev; simpl in *; try discriminate; exact IH.
Qed.

Lemma picks_fail_fast_tail (ev : Event) (t : Trace) :
  picks_fail_fast (ev :: t) -> picks_fail_fast t.
Proof.
  intros H g id Hin. apply (H g id). right. exact Hin.
Qed.

Lemma loop_progress_shift g n t o base (ev : Event) :
  loop_progress g n t o base -> loop_progress g n (ev :: t) o (S base).
Proof.
  intros (k & Hk & Hiter & Hend). exists k.
  split; [exact Hk |]. split; [exact Hiter |].
  destruct Hend as [(Hkn & Ho & Hlen) | (Hkn & e & Ho & Hlast)].
  - left. simpl. auto.
  - right. split; [exact Hkn |]. exists e. split; [exact Ho |].
    destruct Hlast as [(Hp & Hlen) | (id & Hp & Hg & Hlen)].
    + left. simpl. auto.
    + right. exists id. simpl. auto.
Qed.

(** Every loop runs its iterations whole, in order, up to the count or up
    to the call that raised. *)
Lemma loop_trace_progress g n t o :
  loop_trace g n t o -> loop_progress g n t o 0.
Proof.
  induction 1 as [| n e | n id e | n id rid t o H IH].
  - exists O. split; [lia |]. split; [intros i Hi; lia |].
    left. repeat split.
  - exists O. split; [lia |]. split; [intros i Hi; lia |].
    right. split; [lia |]. exists e. split; [reflexivity |].
    left. split; reflexivity.
  - exists O. split; [lia |]. split; [intros i Hi; lia |].
    right. split; [lia |]. exists e. split; [reflexivity |].
    right. exists id. repeat split.
  - apply (loop_progress_shift _ _ _ _ _ (EvGenInstruction id (inr rid))) in IH.
    apply (loop_progress_shift _ _ _ _ _ (EvPickWeighted g (inr id))) in IH.
    destruct IH as (k & Hk & Hiter & Hend).
    exists (S k). split; [lia |]. split.
    + intros [| i] Hi.
      * exists id, rid. split; reflexivity.
      * replace (0 + 2 * S i)%nat with (2 + 2 * i)%nat by lia.
        apply Hiter. lia.
    + replace (0 + 2 * S k)%nat with (2 + 2 * k)%nat by lia.
      destruct Hend as [(Hkn & Ho & Hlen) | (Hkn & e & Ho & Hlast)].
      * left. repeat split; [lia | exact Ho | exact Hlen].
      * right. split; [lia |]. exists e. split; [exact Ho | exact Hlast].
Qed.

(** Two loops of the same length whose submissions all returned and whose
    draws agree as far as both go made the same draws and ended alike. *)
Lemma loop_trace_agree g n t1 o1 :
  loop_trace g n t1 o1 ->
  forall t2 o2,
    loop_trace g n t2 o2 ->
    gens_returned t1 = true -> gens_returned t2 = true ->
    agree (responses t1) (responses t2) ->
    responses t1 = responses t2 /\ o1 = o2.
Proof.
  induction 1 as [| n e | n id e | n id rid t o H IH];
    intros t2 o2 H2 Hg1 Hg2 Hag.
  - inversion H2; subst. split; reflexivity.
  - inversion H2; subst; simpl in *.
    + destruct Hag as [Heq _]. injection Heq as ->. split; reflexivity.
    + discriminate.
    + destruct Hag as [Heq _]. discriminate.
  - simpl in Hg1. discriminate.
  - inversion H2; subst; simpl in *.
    + destruct Hag as [Heq _]. discriminate.
    + discriminate.
    + destruct Hag as [Heq Hag]. injection Heq as ->.
      destruct (IH _ _ H1 Hg1 Hg2 Hag) as [Hr Ho].
      split; [rewrite Hr; reflexivity | exact Ho].
Qed.

End BodyFacts.

Section Iterations.

Context {W : Type} (env : Env W).
Variables RV32F_instructions RV64F_instructions : Group.

Local Abbreviation trace :=
  (generate_trace env RV32F_instructions RV64F_instructions).
Local Abbreviation outcome :=
  (generate_outcome env RV32F_instructions RV64F_instructions).
Local Abbreviation group_for :=
  (active_group RV32F_instructions RV64F_instructions).

(** The loop of a run whose width lookup answered [width]. *)
Lemma generate_group (w : W) width :
  width_reported (trace w) width ->
  exists r body,
    trace w = EvGetOption "instruction_count" r
                :: EvGetGlobalState "AppRegisterWidth" width :: body
    /\ body_trace (resolved_count r) (group_for width) body (outcome w).
Proof.
  intro Hwd.
  destruct (generate_run_shape env RV32F_instructions RV64F_instructions w)
    as (r & width' & body & Ht & Hbody).
  destruct (run_shape_reported _ _ _ _ _ _ _ Ht Hbody) as [_ Hw].
  rewrite (Hw width Hwd) in *. eauto.
Qed.

(** Whatever the width, every draw of the run is on the group selected
    for it, and every identifier submitted was returned by a draw on
    that group. *)
Lemma generate_uses_group (w : W) width :
  width_reported (trace w) width ->
  Forall (eq (group_for width)) (groups_used (trace w))
  /\ (forall id, In id (submitted (trace w)) ->
        In (EvPickWeighted (group_for width) (inr id)) (trace w))
  /\ (picks_within_group (trace w) ->
      forall id, In id (submitted (trace w)) ->
        member id (group_for width) = true).
Proof.
  intro Hwd.
  destruct (generate_group w width Hwd) as (r & body & Ht & Hbody).
  assert (Hdrawn : forall id, In id (submitted (trace w)) ->
            In (EvPickWeighted (group_for width) (inr id)) (trace w)).
  { intros id Hin. rewrite Ht in *. simpl in Hin. right. right.
    destruct (body_trace_cases _ _ _ _ Hbody) as [(_ & -> & _) | (n & _ & Hl)].
    - destruct Hin.
    - eapply loop_trace_submitted_drawn; eassumption. }
  split; [| split].
  - rewrite Ht. simpl.
    destruct (body_trace_cases _ _ _ _ Hbody) as [(_ & -> & _) | (n & _ & Hl)].
    + constructor.
    + eapply loop_trace_groups; eassumption.
  - exact Hdrawn.
  - intros Hcontract id Hin. apply Hcontract. apply Hdrawn. exact Hin.
Qed.

(** C2. When [getGlobalState('AppRegisterWidth')] answers 32, every draw
    of the run is on [RV32F_instructions] and every identifier
    submitted to [genInstruction] was returned by a draw on that group
    (hence is one of its entries when the draw honours its contract);
    when it answers 64, the same holds with [RV64F_instructions].  One
    group serves every iteration. *)
Theorem generate_width_selects_group (w : W) :
  (width_reported (trace w) (PyInt 32) ->
     Forall (eq RV32F_instructions) (groups_used (trace w))
     /\ (forall id, In id (submitted (trace w)) ->
           In (EvPickWeighted RV32F_instructions (inr id)) (trace w))
     /\ (picks_within_group (trace w) ->
         forall id, In id (submitted (trace w)) ->
           member id RV32F_instructions = true))
  /\ (width_reported (trace w) (PyInt 64) ->
     Forall (eq RV64F_instructions) (groups_used (trace w))
     /\ (forall id, In id (submitted (trace w)) ->
           In (EvPickWeighted RV64F_instructions (inr id)) (trace w))
     /\ (picks_within_group (trace w) ->
         forall id, In id (submitted (trace w)) ->
           member id RV64F_instructions = true)).
Proof.
  split; intro Hwd.
  - exact (generate_uses_group w (PyInt 32) Hwd).
  - exact (generate_uses_group w (PyInt 64) Hwd).
Qed.

(** C4, as amended. When [getGlobalState('AppRegisterWidth')] answers a
    value other than 32, be it 64 or not, [generate] draws from
    [RV64F_instructions] and raises nothing on account of the width:
    an exception leaves the run only when [range] rejects the count
    ([TypeError]) or when a [pickWeighted] or [genInstruction] call
    raised, that call being the last of the run. *)
Theorem generate_other_width (w : W) (width : PyVal) :
  width_reported (trace w) width ->
  py_eq width (PyInt 32) = false ->
  Forall (eq RV64F_instructions) (groups_used (trace w))
  /\ forall e, outcome w = inl e ->
       (e = TypeError
        /\ exists v p, option_reported (trace w) v p
                       /\ py_index (resolved_count (v, p)) = None)
       \/ (exists t1 ev, trace w = t1 ++ [ev] /\ raised ev = Some e).
Proof.
  intros Hwd Hneq.
  destruct (generate_uses_group w width Hwd) as [Hgroups _].
  unfold active_group in Hgroups. rewrite Hneq in Hgroups.
  split; [exact Hgroups |].
  intros e He.
  destruct (generate_group w width Hwd) as ([v p] & body & Ht & Hbody).
  rewrite He in Hbody.
  destruct (body_trace_cases _ _ _ _ Hbody) as [(Hi & -> & Ho) | (n & _ & Hl)].
  - left. split; [congruence |].
    exists v, p. split; [rewrite Ht; left; reflexivity | exact Hi].
  - right. apply loop_trace_error in Hl. destruct Hl as (t1 & ev & -> & Hr).
    exists (EvGetOption "instruction_count" (v, p)
              :: EvGetGlobalState "AppRegisterWidth" width :: t1), ev.
    split; [exact Ht | exact Hr].
Qed.

(** C6. The iterations of a run follow one another, none skipped and
    none merged.  After the two lookups, iteration [i] (from 0) holds
    positions [2+2i] and [3+2i] of the trace: the first is one draw on
    the active group, the second the submission of exactly the
    identifier that draw returned; a draw that returned is always
    followed by its submission, and the draw of iteration [i+1] is made
    only after the submission of iteration [i] has returned.  Hence the
    identifier of the [i]-th submission is the [i]-th identifier
    drawn.  No iteration is left out: with an integer count [n], the
    iterations run whole, one after the other, until [max n 0] of them
    are done and the run returns, or until one of them raises the
    exception that ends the run, in its draw or in its submission. *)
Theorem generate_iterations_sequential (w : W) :
  exists r width,
    nth_error (trace w) 0 = Some (EvGetOption "instruction_count" r)
    /\ nth_error (trace w) 1
       = Some (EvGetGlobalState "AppRegisterWidth" width)
    /\ (forall (i : nat) ev,
          nth_error (trace w) (2 + 2 * i) = Some ev ->
          exists answer, ev = EvPickWeighted (group_for width) answer)
    /\ (forall (i : nat) ev,
          nth_error (trace w) (3 + 2 * i) = Some ev ->
          exists id answer,
            ev = EvGenInstruction id answer
            /\ nth_error (trace w) (2 + 2 * i)
               = Some (EvPickWeighted (group_for width) (inr id)))
    /\ (forall (i : nat) id,
          nth_error (trace w) (2 + 2 * i)
          = Some (EvPickWeighted (group_for width) (inr id)) ->
          exists answer,
            nth_error (trace w) (3 + 2 * i)
            = Some (EvGenInstruction id answer))
    /\ (forall (i : nat) ev,
          nth_error (trace w) (4 + 2 * i) = Some ev ->
          exists id rid,
            nth_error (trace w) (3 + 2 * i)
            = Some (EvGenInstruction id (inr rid)))
    /\ submitted (trace w) = drawn (trace w)
    /\ (forall n : Z,
          py_index (resolved_count r) = Some n ->
          loop_progress (group_for width) (Z.to_nat n) (trace w)
            (outcome w) 2).
Proof.
  destruct (generate_run_shape env RV32F_instructions RV64F_instructions w)
    as (r & width & body & Ht & Hbody).
  exists r, width. rewrite Ht.
  split; [reflexivity |]. split; [reflexivity |].
  destruct (body_trace_cases _ _ _ _ Hbody) as [(Hi & -> & _) | (n & Hi & Hl)].
  - split; [| split; [| split; [| split; [| split]]]];
      try (intros i x H; simpl in H;
           destruct (i + (i + 0))%nat; discriminate).
    + reflexivity.
    + intros n Hn. congruence.
  - split; [| split; [| split; [| split; [| split]]]].
    + intros i ev H. exact (loop_trace_even _ _ _ _ Hl i ev H).
    + intros i ev H. exact (loop_trace_odd _ _ _ _ Hl i ev H).
    + intros i id H. exact (loop_trace_follow _ _ _ _ Hl i id H).
    + intros i ev H. exact (loop_trace_next _ _ _ _ Hl i ev H).
    + simpl. eapply loop_trace_submitted; eassumption.
    + intros n' Hn. assert (n' = n) by congruence. subst n'.
      apply loop_progress_shift, loop_progress_shift.
      apply loop_trace_progress. exact Hl.
Qed.

(** C8. In every run [getOption("instruction_count")] and
    [getGlobalState('AppRegisterWidth')] are each queried exactly once,
    as the first and the second call, before any [pickWeighted] or
    [genInstruction] call.  The rest of the run holds only draws and
    submissions: every draw is on the one group selected from the
    width, and there are at most as many iterations as the count
    resolved from the option. *)
Theorem generate_lookups_once (w : W) :
  calls is_getOption (trace w) = 1%nat
  /\ calls is_getGlobalState (trace w) = 1%nat
  /\ exists r width body,
       trace w = EvGetOption "instruction_count" r
                   :: EvGetGlobalState "AppRegisterWidth" width :: body
       /\ Forall (fun ev => is_pickWeighted ev || is_genInstruction ev = true)
            body
       /\ Forall (eq (group_for width)) (groups_used body)
       /\ (forall n, py_index (resolved_count r) = Some n ->
             (calls is_pickWeighted body <= Z.to_nat n)%nat).
Proof.
  destruct (generate_run_shape env RV32F_instructions RV64F_instructions w)
    as (r & width & body & Ht & Hbody).
  pose proof (body_trace_kinds _ _ _ _ Hbody) as Hkinds.
  destruct (calls_lookups_none body Hkinds) as [Hopt Hst].
  rewrite Ht. unfold calls in *. simpl.
  split; [rewrite Hopt; reflexivity |].
  split; [rewrite Hst; reflexivity |].
  exists r, width, body. split; [reflexivity |]. split; [exact Hkinds |].
  destruct (body_trace_cases _ _ _ _ Hbody) as [(Hi & -> & _) | (n & Hi & Hl)].
  - split; [constructor |]. intros n Hn. congruence.
  - split; [eapply loop_trace_groups; eassumption |].
    intros n' Hn. assert (n' = n) by congruence. subst n'.
    apply (loop_trace_bound _ _ _ _ Hl).
Qed.

(** C9. When a [pickWeighted] or [genInstruction] call raises, say in
    iteration [i], the exception is the outcome of [generate], the call
    is the last of the run (nothing is retried, nothing undone), and
    exactly the [i-1] submissions of the earlier iterations have been
    made, each having returned: [i] is the number of draws up to and
    including the failing iteration.  In particular, when the draw
    raises on a group that cannot be sampled (empty or of total weight
    zero) and honours its fail-fast contract, it is the first draw of
    the run and nothing has been submitted. *)
Theorem generate_propagates (w : W) (t1 : Trace) (ev : Event) (t2 : Trace)
    (e : PyExn) :
  trace w = t1 ++ ev :: t2 ->
  raised ev = Some e ->
  outcome w = inl e
  /\ t2 = []
  /\ S (calls is_genInstruction t1) = calls is_pickWeighted (t1 ++ [ev])
  /\ List.length (record_ids t1) = calls is_genInstruction t1
  /\ (forall g, ev = EvPickWeighted g (inl e) ->
        sampleable g = false ->
        picks_fail_fast (trace w) ->
        calls is_pickWeighted t1 = O
        /\ calls is_genInstruction (trace w) = O).
Proof.
  intros Heq Hr.
  destruct (generate_run_shape env RV32F_instructions RV64F_instructions w)
    as (r & width & body & Ht & Hbody).
  rewrite Ht in Heq.
  destruct t1 as [| a t1];
    [simpl in Heq; injection Heq as <- _; discriminate |].
  destruct t1 as [| b t1];
    [simpl in Heq; injection Heq as _ <- _; discriminate |].
  simpl in Heq. injection Heq as <- <- Heq.
  destruct (body_trace_cases _ _ _ _ Hbody) as [(_ & -> & _) | (n & _ & Hl)];
    [destruct t1; discriminate |].
  destruct (loop_trace_raise _ _ _ _ Hl t1 ev t2 e Heq Hr)
    as (Ho & Ht2 & Hc & Hlen).
  split; [exact Ho |]. split; [exact Ht2 |].
  split; [unfold calls in *; simpl; exact Hc |].
  split; [unfold calls in *; simpl; exact Hlen |].
  intros g Hev Hg Hff.
  assert (Hgrp : g = group_for width).
  { pose proof (loop_trace_groups _ _ _ _ Hl) as Hgs.
    rewrite Heq, Hev in Hgs.
    clear - Hgs. induction t1 as [| x t1 IH]; simpl in Hgs.
    - inversion Hgs. congruence.
    - destruct x; try (apply IH; exact Hgs).
      inversion Hgs. apply IH. assumption. }
  subst g.
  rewrite Ht in Hff.
  apply picks_fail_fast_tail, picks_fail_fast_tail in Hff.
  destruct (loop_trace_fail_fast _ _ _ _ Hl Hg Hff) as [Hb | [e' Hb]];
    rewrite Hb in Heq.
  - destruct t1; discriminate.
  - destruct t1 as [| x t1]; [| destruct t1; discriminate].
    rewrite Ht, Hb. split; reflexivity.
Qed.

End Iterations.

Section RecordIds.

Context {W1 W2 : Type} (env1 : Env W1) (env2 : Env W2).
Variables RV32F_instructions RV64F_instructions : Group.

(** In any run, the identifiers submitted are the identifiers drawn. *)
Lemma generate_submitted_drawn {W : Type} (env : Env W) (w : W) :
  submitted (generate_trace env RV32F_instructions RV64F_instructions w)
  = drawn (generate_trace env RV32F_instructions RV64F_instructions w).
Proof.
  destruct (generate_run_shape env RV32F_instructions RV64F_instructions w)
    as (r & width & body & Ht & Hbody).
  rewrite Ht. simpl.
  destruct (body_trace_cases _ _ _ _ Hbody) as [(_ & -> & _) | (n & _ & Hl)].
  - reflexivity.
  - eapply loop_trace_submitted; eassumption.
Qed.

(** Runs that received the same responses submitted the same identifiers
    and made the same number of draws. *)
Lemma generate_same_responses (w1 : W1) (w2 : W2) :
  responses (generate_trace env1 RV32F_instructions RV64F_instructions w1)
  = responses (generate_trace env2 RV32F_instructions RV64F_instructions w2) ->
  submitted (generate_trace env1 RV32F_instructions RV64F_instructions w1)
  = submitted (generate_trace env2 RV32F_instructions RV64F_instructions w2)
  /\ calls is_pickWeighted
       (generate_trace env1 RV32F_instructions RV64F_instructions w1)
     = calls is_pickWeighted
         (generate_trace env2 RV32F_instructions RV64F_instructions w2)
  /\ calls is_genInstruction
       (generate_trace env1 RV32F_instructions RV64F_instructions w1)
     = calls is_genInstruction
         (generate_trace env2 RV32F_instructions RV64F_instructions w2).
Proof.
  intro Hresp.
  assert (Hsub :
    submitted (generate_trace env1 RV32F_instructions RV64F_instructions w1)
    = submitted (generate_trace env2 RV32F_instructions RV64F_instructions w2)).
  { rewrite !generate_submitted_drawn, !drawn_responses, Hresp. reflexivity. }
  split; [exact Hsub |]. split.
  - rewrite !picks_responses, Hresp. reflexivity.
  - rewrite !calls_gen_submitted, Hsub. reflexivity.
Qed.

(** C7. The record identifiers [genInstruction] returns have no effect
    on the run.  Take two runs of [generate], on any two hosts, in which
    every [genInstruction] call returned a record identifier, whichever
    it was, and in which [getOption], [getGlobalState] and [pickWeighted]
    gave the same response at every call both runs made; nothing is
    assumed about how many calls either run made.  Then the two runs
    submitted the same sequence of identifiers and performed the same
    number of iterations; they received the same responses throughout
    and ended with the same outcome. *)
Theorem generate_ignores_record_ids (w1 : W1) (w2 : W2) :
  agree
    (responses (generate_trace env1 RV32F_instructions RV64F_instructions w1))
    (responses (generate_trace env2 RV32F_instructions RV64F_instructions w2)) ->
  gens_returned
    (generate_trace env1 RV32F_instructions RV64F_instructions w1) = true ->
  gens_returned
    (generate_trace env2 RV32F_instructions RV64F_instructions w2) = true ->
  submitted (generate_trace env1 RV32F_instructions RV64F_instructions w1)
  = submitted (generate_trace env2 RV32F_instructions RV64F_instructions w2)
  /\ calls is_pickWeighted
       (generate_trace env1 RV32F_instructions RV64F_instructions w1)
     = calls is_pickWeighted
         (generate_trace env2 RV32F_instructions RV64F_instructions w2)
  /\ calls is_genInstruction
       (generate_trace env1 RV32F_instructions RV64F_instructions w1)
     = calls is_genInstruction
         (generate_trace env2 RV32F_instructions RV64F_instructions w2)
  /\ responses (generate_trace env1 RV32F_instructions RV64F_instructions w1)
     = responses (generate_trace env2 RV32F_instructions RV64F_instructions w2)
  /\ generate_outcome env1 RV32F_instructions RV64F_instructions w1
     = generate_outcome env2 RV32F_instructions RV64F_instructions w2.
Proof.
  intros Hag Hg1 Hg2.
  assert (Hboth :
    responses (generate_trace env1 RV32F_instructions RV64F_instructions w1)
    = responses (generate_trace env2 RV32F_instructions RV64F_instructions w2)
    /\ generate_outcome env1 RV32F_instructions RV64F_instructions w1
       = generate_outcome env2 RV32F_instructions RV64F_instructions w2).
  { destruct (generate_run_shape env1 RV32F_instructions RV64F_instructions w1)
      as (r1 & width1 & body1 & Ht1 & Hbody1).
    destruct (generate_run_shape env2 RV32F_instructions RV64F_instructions w2)
      as (r2 & width2 & body2 & Ht2 & Hbody2).
    rewrite Ht1, Ht2 in *. simpl in Hag, Hg1, Hg2.
    destruct Hag as (Hr & Hw & Hag).
    injection Hr as <-. injection Hw as <-.
    destruct (body_trace_cases _ _ _ _ Hbody1)
      as [(Hi1 & -> & Ho1) | (n1 & Hi1 & Hl1)];
      destruct (body_trace_cases _ _ _ _ Hbody2)
        as [(Hi2 & -> & Ho2) | (n2 & Hi2 & Hl2)]; try congruence.
    - split; [reflexivity | congruence].
    - assert (n2 = n1) by congruence. subst n2.
      destruct (loop_trace_agree _ _ _ _ Hl1 _ _ Hl2 Hg1 Hg2 Hag) as [Hr Ho].
      split; [simpl; rewrite Hr; reflexivity | exact Ho]. }
  destruct Hboth as [Hresp Hout].
  destruct (generate_same_responses w1 w2 Hresp) as (Hs & Hp & Hc).
  repeat split; assumption.
Qed.

End RecordIds.

(* ================================================================== *)
(** * The properties on concrete runs *)
(* ================================================================== *)

Section Scenarios.

Local Abbreviation sim_trace := (generate_trace Sim.host Sim.rv32f Sim.rv64f).
Local Abbreviation sim_outcome := (generate_outcome Sim.host Sim.rv32f Sim.rv64f).

(** A count of 3 on a 64-bit target: three submissions. *)
Lemma generate_count_fidelity_witness :
  Z.of_nat (calls is_genInstruction (sim_trace Sim.three_on_64)) = 3.
Proof.
  apply (generate_count_fidelity Sim.host Sim.rv32f Sim.rv64f Sim.three_on_64 3).
  - lia.
  - vm_compute. left. reflexivity.
  - vm_compute. reflexivity.
Defined.

(** Width 32: the four submissions are entries of the 32-bit group. *)
Lemma generate_width_selects_group_witness :
  Forall (eq Sim.rv32f) (groups_used (sim_trace Sim.four_on_32))
  /\ Forall (fun id => member id Sim.rv32f = true)
       (submitted (sim_trace Sim.four_on_32)).
Proof.
  destruct (generate_width_selects_group Sim.host Sim.rv32f Sim.rv64f
              Sim.four_on_32) as [H32 _].
  destruct H32 as (Hgroups & _ & Hmember).
  - vm_compute. right. left. reflexivity.
  - split; [exact Hgroups |].
    apply Forall_forall. apply Hmember.
    intros g id Hin. vm_compute in Hin.
    repeat (destruct Hin as [Hin | Hin];
            [try discriminate; injection Hin as <- <-; reflexivity |]).
    destruct Hin.
Defined.

(** The claim C3 fails on a count of zero: the option is present, its
    value is not a positive integer, and the run returns without any
    exception. *)
Lemma generate_zero_count_returns :
  option_reported (sim_trace Sim.zero_count) (PyInt 0) true
  /\ ~ positive_integer (PyInt 0)
  /\ sim_outcome Sim.zero_count = inr tt
  /\ ~ (exists e, sim_outcome Sim.zero_count = inl e).
Proof.
  split; [vm_compute; left; reflexivity |].
  split; [intros (n & Hn & Hpos); simpl in Hn; injection Hn as <-; lia |].
  split; [vm_compute; reflexivity |].
  intros [e He]. vm_compute in He. discriminate.
Defined.

(** A count that is a string: [TypeError], and nothing drawn or
    submitted. *)
Lemma generate_invalid_count_witness :
  calls is_pickWeighted (sim_trace Sim.string_count) = O
  /\ calls is_genInstruction (sim_trace Sim.string_count) = O
  /\ sim_outcome Sim.string_count = inl TypeError.
Proof.
  destruct (generate_invalid_count Sim.host Sim.rv32f Sim.rv64f
              Sim.string_count (PyStr "abc")) as (Hp & Hg & _ & Herr & _).
  - vm_compute. left. reflexivity.
  - intros (n & Hn & _). discriminate.
  - split; [exact Hp | split; [exact Hg | apply Herr; reflexivity]].
Defined.

(** The claim C4 fails on a width of 16: the width is neither 32 nor 64,
    and the run returns without any exception after three
    submissions. *)
Lemma generate_width_16_returns :
  width_reported (sim_trace Sim.width_16) (PyInt 16)
  /\ PyInt 16 <> PyInt 32 /\ PyInt 16 <> PyInt 64
  /\ sim_outcome Sim.width_16 = inr tt
  /\ calls is_genInstruction (sim_trace Sim.width_16) = 3%nat.
Proof.
  split; [vm_compute; right; left; reflexivity |].
  split; [discriminate |]. split; [discriminate |].
  split; vm_compute; reflexivity.
Defined.

(** Width 16: every draw is on the 64-bit group. *)
Lemma generate_other_width_witness :
  Forall (eq Sim.rv64f) (groups_used (sim_trace Sim.width_16)).
Proof.
  apply (generate_other_width Sim.host Sim.rv32f Sim.rv64f Sim.width_16
           (PyInt 16)).
  - vm_compute. right. left. reflexivity.
  - vm_compute. reflexivity.
Defined.

(** No option: one hundred submissions. *)
Lemma generate_default_count_witness :
  calls is_genInstruction (sim_trace Sim.no_option) = 100%nat.
Proof.
  apply (generate_default_count Sim.host Sim.rv32f Sim.rv64f Sim.no_option
           (PyInt 0)).
  - vm_compute. left. reflexivity.
  - vm_compute. reflexivity.
Defined.

(** Two hosts that hand out different record identifiers. *)
Lemma generate_ignores_record_ids_witness :
  record_ids (sim_trace Sim.three_on_64)
  <> record_ids (generate_trace (Sim.host_shifted 1000) Sim.rv32f Sim.rv64f
                   Sim.three_on_64)
  /\ submitted (sim_trace Sim.three_on_64)
     = submitted (generate_trace (Sim.host_shifted 1000) Sim.rv32f Sim.rv64f
                    Sim.three_on_64).
Proof.
  split; [vm_compute; discriminate |].
  apply (generate_ignores_record_ids Sim.host (Sim.host_shifted 1000)
           Sim.rv32f Sim.rv64f Sim.three_on_64 Sim.three_on_64).
  - vm_compute. repeat split.
  - vm_compute. reflexivity.
  - vm_compute. reflexivity.
Defined.

(** Three iterations on a 64-bit target: all three ran whole and the run
    returned, its trace ending after the third. *)
Lemma generate_iterations_sequential_witness :
  iteration_at Sim.rv64f (sim_trace Sim.three_on_64) 6
  /\ List.length (sim_trace Sim.three_on_64) = 8%nat.
Proof.
  destruct (generate_iterations_sequential Sim.host Sim.rv32f Sim.rv64f
              Sim.three_on_64)
    as (r & width & Hopt & Hwd & _ & _ & _ & _ & _ & Hprog).
  vm_compute in Hopt. injection Hopt as <-.
  vm_compute in Hwd. injection Hwd as <-.
  destruct (Hprog 3 eq_refl) as (k & _ & Hiter & Hend).
  destruct Hend as [(Hk & _ & Hlen) | (_ & e & Ho & _)].
  - subst k. split; [apply (Hiter 2%nat); simpl; lia | exact Hlen].
  - vm_compute in Ho. discriminate.
Defined.

(** A draw on an empty 64-bit group raises at once: it is the first
    draw, nothing is submitted and the exception leaves the run. *)
Lemma generate_propagates_witness :
  generate_outcome Sim.host Sim.rv32f [] Sim.three_on_64
  = inl (Raised "SelectionError")
  /\ calls is_genInstruction
       (generate_trace Sim.host Sim.rv32f [] Sim.three_on_64) = O.
Proof.
  destruct (generate_propagates Sim.host Sim.rv32f [] Sim.three_on_64
              [EvGetOption "instruction_count" (PyInt 3, true);
               EvGetGlobalState "AppRegisterWidth" (PyInt 64)]
              (EvPickWeighted [] (inl (Raised "SelectionError")))
              [] (Raised "SelectionError"))
    as (Ho & _ & _ & _ & Hfirst).
  - vm_compute. reflexivity.
  - reflexivity.
  - split; [exact Ho |].
    apply (Hfirst []).
    + reflexivity.
    + reflexivity.
    + intros g id Hin. vm_compute in Hin.
      repeat (destruct Hin as [Hin | Hin]; [discriminate |]).
      destruct Hin.
Defined.

(** A count of -2: the width is queried, nothing else is called. *)
Lemma generate_nonpositive_count_witness :
  sim_outcome Sim.negative_count = inr tt
  /\ calls is_genInstruction (sim_trace Sim.negative_count) = O.
Proof.
  destruct (generate_nonpositive_count Sim.host Sim.rv32f Sim.rv64f
              Sim.negative_count (-2)) as (Ho & _ & Hg & _).
  - lia.
  - vm_compute. left. reflexivity.
  - split; [exact Ho | exact Hg].
Defined.

(** Earlier iterations stand when the backend fails: with room for two
    instructions and a count of five, the third submission raises, the
    exception leaves the run, and the program keeps the two instructions
    generated before. *)
Example generate_small_program :
  sim_outcome Sim.small_program = inl (Raised "GenerationError")
  /\ calls is_pickWeighted (sim_trace Sim.small_program) = 3%nat
  /\ calls is_genInstruction (sim_trace Sim.small_program) = 3%nat
  /\ record_ids (sim_trace Sim.small_program) = [1; 2]
  /\ Sim.program (generate_final Sim.host Sim.rv32f Sim.rv64f Sim.small_program)
     = ["FMUL.S##RISCV"; "FMUL.S##RISCV"].
Proof. vm_compute. repeat split. Qed.

End Scenarios.

(* ================================================================== *)
(** * Further properties of a generation run *)
(* ================================================================== *)

Section LoopCounts.

Variable g : Group.

(** The loop returns exactly when none of its calls raised. *)
Lemma loop_trace_returned n t o :
  loop_trace g n t o -> (o = inr tt <-> all_returned t = true).
Proof.
  induction 1 as [| n e | n id e | n id rid t o H IH]; simpl.
  - split; reflexivity.
  - split; discriminate.
  - split; discriminate.
  - exact IH.
Qed.

(** Draws, submissions and record identifiers of a loop of [n]
    iterations, whether it returned or not. *)
Lemma loop_trace_counts n t o :
  loop_trace g n t o ->
  (calls is_genInstruction t <= calls is_pickWeighted t)%nat
  /\ (calls is_pickWeighted t <= S (calls is_genInstruction t))%nat
  /\ (calls is_pickWeighted t <= n)%nat
  /\ (List.length (record_ids t) <= calls is_genInstruction t)%nat
  /\ (calls is_genInstruction t <= S (List.length (record_ids t)))%nat.
Proof.
  unfold calls. induction 1; simpl; lia.
Qed.

(** Every submission of a loop that returned has its record identifier. *)
Lemma loop_trace_completed_ids n t :
  loop_trace g n t (inr tt) -> List.length (record_ids t) = n.
Proof.
  intro H. remember (inr tt) as o eqn:Ho.
  induction H as [| n e | n id e | n id rid t o H IH]; try discriminate.
  - reflexivity.
  - simpl. rewrite (IH Ho). reflexivity.
Qed.

End LoopCounts.

Lemma py_eq_32_index (width : PyVal) :
  py_eq width (PyInt 32) = true -> py_index width = Some 32.
Proof.
  destruct width as [z | b | s |]; unfold py_eq; simpl; try discriminate.
  - intro H. apply Z.eqb_eq in H. congruence.
  - destruct b; discriminate.
Qed.

Section Further.

Context {W : Type} (env : Env W).
Variables RV32F_instructions RV64F_instructions : Group.

Local Abbreviation trace :=
  (generate_trace env RV32F_instructions RV64F_instructions).
Local Abbreviation outcome :=
  (generate_outcome env RV32F_instructions RV64F_instructions).
Local Abbreviation final :=
  (generate_final env RV32F_instructions RV64F_instructions).

(** X1. [generate] returns normally exactly when the count it resolved is
    an integer and no [pickWeighted] or [genInstruction] call raised. *)
Theorem generate_returns_iff (w : W) (v : PyVal) (p : bool) :
  option_reported (trace w) v p ->
  (outcome w = inr tt <->
   py_index (resolved_count (v, p)) <> None /\ all_returned (trace w) = true).
Proof.
  intro Hopt.
  destruct (generate_body env _ _ w _ _ Hopt) as (width & body & Ht & Hbody).
  rewrite Ht. simpl.
  destruct (body_trace_cases _ _ _ _ Hbody) as [(Hi & -> & Ho) | (n & Hi & Hl)].
  - rewrite Ho, Hi. split; [discriminate | intros [H _]; congruence].
  - rewrite Hi. rewrite (loop_trace_returned _ _ _ _ Hl).
    split; [intro H; split; [discriminate | exact H] | intros [_ H]; exact H].
Qed.

(** X2. Whether the run returns or is cut short, it never goes beyond the
    count: with an integer count [n] there are at most [max n 0] draws;
    submissions never outnumber draws, at most one draw is left without
    its submission, and at most one submission is left without a record
    identifier.  A run that returns has made exactly [max n 0] draws and
    as many submissions, each with its record identifier. *)
Theorem generate_within_count (w : W) (v : PyVal) (p : bool) (n : Z) :
  option_reported (trace w) v p ->
  py_index (resolved_count (v, p)) = Some n ->
  (calls is_genInstruction (trace w) <= calls is_pickWeighted (trace w))%nat
  /\ (calls is_pickWeighted (trace w)
      <= S (calls is_genInstruction (trace w)))%nat
  /\ Z.of_nat (calls is_pickWeighted (trace w)) <= Z.max n 0
  /\ (calls is_genInstruction (trace w)
      <= S (List.length (record_ids (trace w))))%nat
  /\ (outcome w = inr tt ->
      Z.of_nat (calls is_pickWeighted (trace w)) = Z.max n 0
      /\ Z.of_nat (calls is_genInstruction (trace w)) = Z.max n 0
      /\ Z.of_nat (List.length (record_ids (trace w))) = Z.max n 0).
Proof.
  intros Hopt Hn.
  destruct (generate_body env _ _ w _ _ Hopt) as (width & body & Ht & Hbody).
  unfold body_trace in Hbody. rewrite Hn in Hbody.
  destruct (loop_trace_counts _ _ _ _ Hbody) as (H1 & H2 & H3 & H4 & H5).
  rewrite Ht. unfold calls in *. simpl.
  split; [exact H1 |]. split; [exact H2 |]. split; [lia |].
  split; [exact H5 |].
  intro Hdone. rewrite Hdone in Hbody.
  destruct (loop_trace_completed _ _ _ Hbody) as [Hp Hg].
  pose proof (loop_trace_completed_ids _ _ _ Hbody) as Hids.
  unfold calls in *. lia.
Qed.

(** X3. When [getOption] reports the option absent, the value it hands
    back is never used, whatever it is: [range] cannot reject the count,
    so the run returns after exactly 100 iterations unless a
    [pickWeighted] or [genInstruction] call raised, and any exception
    that leaves the run is the one its last call raised. *)
Theorem generate_absent_option (w : W) (v : PyVal) :
  option_reported (trace w) v false ->
  (all_returned (trace w) = true ->
     outcome w = inr tt /\ calls is_genInstruction (trace w) = 100%nat)
  /\ (forall e, outcome w = inl e ->
        exists t1 ev, trace w = t1 ++ [ev] /\ raised ev = Some e).
Proof.
  intro Hopt.
  destruct (generate_body env _ _ w _ _ Hopt) as (width & body & Ht & Hbody).
  unfold body_trace in Hbody. simpl in Hbody.
  split.
  - intro Hall. rewrite Ht in Hall. simpl in Hall.
    apply (loop_trace_returned _ _ _ _ Hbody) in Hall.
    split; [exact Hall |].
    rewrite Hall in Hbody. apply loop_trace_completed in Hbody.
    destruct Hbody as [_ Hg]. rewrite Ht. unfold calls in *. simpl. exact Hg.
  - intros e He. rewrite He in Hbody.
    apply loop_trace_error in Hbody. destruct Hbody as (t1 & ev & -> & Hr).
    exists (EvGetOption "instruction_count" (v, false)
              :: EvGetGlobalState "AppRegisterWidth" width :: t1), ev.
    split; [exact Ht | exact Hr].
Qed.

(** X4. An exception that leaves the run although no call raised is the
    [TypeError] of [range]: the option was present with a value that is
    not an integer, and the run consists of the two lookups alone. *)
Theorem generate_type_error (w : W) (e : PyExn) :
  outcome w = inl e ->
  all_returned (trace w) = true ->
  e = TypeError
  /\ exists v width,
       py_index v = None
       /\ trace w = [EvGetOption "instruction_count" (v, true);
                     EvGetGlobalState "AppRegisterWidth" width].
Proof.
  intros He Hall.
  destruct (generate_run_shape env RV32F_instructions RV64F_instructions w)
    as ([v p] & width & body & Ht & Hbody).
  rewrite Ht in Hall. simpl in Hall.
  destruct (body_trace_cases _ _ _ _ Hbody) as [(Hi & -> & Ho) | (n & _ & Hl)].
  - split; [congruence |].
    destruct p; [| discriminate].
    exists v, width. split; [exact Hi | exact Ht].
  - apply (loop_trace_returned _ _ _ _ Hl) in Hall. congruence.
Qed.

(** X5. The 32-bit group is drawn from only when the width compares equal
    to 32: if the two groups differ and some draw of the run is on
    [RV32F_instructions], then [getGlobalState('AppRegisterWidth')]
    answered a value equal to the integer 32 (a string such as "32" is
    not). *)
Theorem generate_rv32f_only_for_32 (w : W) (width : PyVal) :
  width_reported (trace w) width ->
  RV32F_instructions <> RV64F_instructions ->
  In RV32F_instructions (groups_used (trace w)) ->
  py_eq width (PyInt 32) = true /\ py_index width = Some 32.
Proof.
  intros Hwd Hdiff Hin.
  destruct (generate_uses_group env _ _ w width Hwd) as [Hgroups _].
  rewrite Forall_forall in Hgroups. apply Hgroups in Hin.
  unfold active_group in Hin.
  destruct (py_eq width (PyInt 32)) eqn:Heq.
  - split; [reflexivity | apply py_eq_32_index; exact Heq].
  - congruence.
Qed.

(** X6. The lookups read the host as [generate] finds it: the option
    answer of the run is the host's answer in the initial state, and the
    width answer is the host's answer in the state [getOption] left. *)
Theorem generate_lookups_initial (w : W) (v : PyVal) (p : bool) (width : PyVal) :
  (option_reported (trace w) v p <->
   fst (getOption env "instruction_count" w) = (v, p))
  /\ (width_reported (trace w) width <->
      fst (getGlobalState env "AppRegisterWidth"
             (snd (getOption env "instruction_count" w))) = width).
Proof.
  destruct (generate_run_shape env RV32F_instructions RV64F_instructions w)
    as (r & width' & body & Ht & Hbody).
  destruct (run_shape_reported _ _ _ _ _ _ _ Ht Hbody) as [Hr Hw].
  assert (Hhead : exists rest,
    trace w = EvGetOption "instruction_count"
                (fst (getOption env "instruction_count" w))
              :: EvGetGlobalState "AppRegisterWidth"
                   (fst (getGlobalState env "AppRegisterWidth"
                           (snd (getOption env "instruction_count" w))))
              :: rest).
  { unfold generate_trace, generate_run, generate. simpl.
    destruct (getOption env "instruction_count" w) as [[v0 p0] w1]. simpl.
    destruct (getGlobalState env "AppRegisterWidth" w1) as [width0 w2]. simpl.
    destruct (run env _ w2) as [[t o] w3]. simpl. eauto. }
  destruct Hhead as [rest Hhead].
  rewrite Ht in Hhead. injection Hhead as Hr0 Hw0 _.
  split; split.
  - intro H. rewrite <- Hr0. apply Hr. exact H.
  - intro H. rewrite Ht, Hr0, H. left. reflexivity.
  - intro H. rewrite <- Hw0. apply Hw. exact H.
  - intro H. rewrite Ht, Hw0, H. right. left. reflexivity.
Qed.

(** Renaming the record identifiers of the host renames them in the
    loop's trace and changes nothing else. *)
Lemma run_for_each_relabel (f : Ident -> RecordId -> RecordId) (g : Group)
    (xs : list Z) (w : W) :
  run (relabel_host f env) (for_each xs (loop_body g)) w =
    let '(t, o, w') := run env (for_each xs (loop_body g)) w in
    (map (relabel_event f) t, o, w').
Proof.
  revert w. induction xs as [| x xs IH]; intro w; [reflexivity |].
  rewrite !run_for_each_cons. cbn [relabel_host pickWeighted genInstruction].
  destruct (pickWeighted env g w) as [[e | id] w1]; [reflexivity |].
  destruct (genInstruction env id w1) as [[e | rid] w2]; [reflexivity |].
  rewrite IH.
  destruct (run env (for_each xs (loop_body g)) w2) as [[t o] w3].
  reflexivity.
Qed.

(** X7. The record identifiers are opaque to [generate]: against a host
    that hands them out renamed by any function, the run makes the same
    calls with the same arguments and answers (the record identifiers
    renamed), has the same outcome and leaves the host in the same
    state. *)
Theorem generate_relabel (f : Ident -> RecordId -> RecordId) (w : W) :
  generate_trace (relabel_host f env) RV32F_instructions RV64F_instructions w
  = map (relabel_event f) (trace w)
  /\ generate_outcome (relabel_host f env) RV32F_instructions
       RV64F_instructions w = outcome w
  /\ generate_final (relabel_host f env) RV32F_instructions
       RV64F_instructions w = final w.
Proof.
  unfold generate_trace, generate_outcome, generate_final, generate_run, generate.
  simpl.
  destruct (getOption env "instruction_count" w) as [[v p] w1]. simpl.
  destruct (getGlobalState env "AppRegisterWidth" w1) as [width w2]. simpl.
  rewrite !run_bind. unfold py_range.
  destruct (py_index (if p then v else PyInt 100)) as [n |]; simpl.
  - rewrite run_for_each_relabel.
    destruct (run env (for_each _ (loop_body _)) w2) as [[t o] w3].
    simpl. repeat split.
  - repeat split.
Qed.

End Further.

(* ================================================================== *)
(** * The further properties on concrete runs *)
(* ================================================================== *)

Section FurtherScenarios.

Local Abbreviation sim_trace := (generate_trace Sim.host Sim.rv32f Sim.rv64f).
Local Abbreviation sim_outcome := (generate_outcome Sim.host Sim.rv32f Sim.rv64f).

(** With room for two instructions and a count of five, a call raises:
    the run does not return. *)
Lemma generate_returns_iff_witness :
  sim_outcome Sim.small_program <> inr tt.
Proof.
  intro Hdone.
  apply (generate_returns_iff Sim.host Sim.rv32f Sim.rv64f Sim.small_program
           (PyInt 5) true) in Hdone.
  - destruct Hdone as [_ Hall]. vm_compute in Hall. discriminate.
  - vm_compute. left. reflexivity.
Defined.

(** The same run stays within its count of five. *)
Lemma generate_within_count_witness :
  (calls is_genInstruction (sim_trace Sim.small_program)
   <= calls is_pickWeighted (sim_trace Sim.small_program))%nat
  /\ Z.of_nat (calls is_pickWeighted (sim_trace Sim.small_program)) <= Z.max 5 0.
Proof.
  destruct (generate_within_count Sim.host Sim.rv32f Sim.rv64f
              Sim.small_program (PyInt 5) true 5) as (H1 & _ & H3 & _).
  - vm_compute. left. reflexivity.
  - reflexivity.
  - split; [exact H1 | exact H3].
Defined.

(** An absent option handed back as a string: one hundred submissions and
    a normal return. *)
Lemma generate_absent_option_witness :
  generate_outcome host_without_options Sim.rv32f Sim.rv64f Sim.no_option
  = inr tt
  /\ calls is_genInstruction
       (generate_trace host_without_options Sim.rv32f Sim.rv64f Sim.no_option)
     = 100%nat.
Proof.
  apply (generate_absent_option host_without_options Sim.rv32f Sim.rv64f
           Sim.no_option (PyStr "unset")).
  - vm_compute. left. reflexivity.
  - vm_compute. reflexivity.
Defined.

(** A count that is a string: the exception is [TypeError]. *)
Lemma generate_type_error_witness :
  exists v width,
    py_index v = None
    /\ sim_trace Sim.string_count
       = [EvGetOption "instruction_count" (v, true);
          EvGetGlobalState "AppRegisterWidth" width].
Proof.
  apply (generate_type_error Sim.host Sim.rv32f Sim.rv64f Sim.string_count
           TypeError).
  - vm_compute. reflexivity.
  - vm_compute. reflexivity.
Defined.

(** Draws on the 32-bit group: the width was 32. *)
Lemma generate_rv32f_only_for_32_witness :
  py_eq (PyInt 32) (PyInt 32) = true /\ py_index (PyInt 32) = Some 32.
Proof.
  apply (generate_rv32f_only_for_32 Sim.host Sim.rv32f Sim.rv64f
           Sim.four_on_32 (PyInt 32)).
  - vm_compute. right. left. reflexivity.
  - discriminate.
  - vm_compute. left. reflexivity.
Defined.

End FurtherScenarios.
